(** * Nitrogen: the prompt router of [app.py]

    A shallow embedding of [route_prompt] (the rule-based intent
    classifier), of the regular-expression fragment its rule table uses, and
    of the request handlers that surround it, followed by the properties of
    the specification.

    Conventions.
    - A prompt is a Python [str].  It is a [string] here, whose characters
      are read as the code points U+0000..U+00FF; [str.lower] and the
      classes [\w], [\d], [\s] are the ones Python 3 uses on that range
      (which [str.lower] does not leave).
    - A Python [int] is a [Z].
    - A Python [dict] is an association list in insertion order: the order
      in which [items()] and [values()] iterate.
    - A Python exception is a [Raise] in the [result] monad. *)

From Stdlib Require Import String Ascii List ZArith NArith Bool Lia.
Import ListNotations.

Local Open Scope string_scope.
Local Open Scope Z_scope.

(** ** Exceptions *)

Inductive exn : Type :=
| KeyError (key : string)
| ValueError
| IndexError.

Inductive result (A : Type) : Type :=
| Ok (a : A)
| Raise (e : exn).

Arguments Ok {A} a.
Arguments Raise {A} e.

Definition bind {A B : Type} (m : result A) (f : A -> result B) : result B :=
  match m with
  | Ok a => f a
  | Raise e => Raise e
  end.

Notation "x <- m ;; k" := (bind m (fun x => k))
  (at level 61, m at next level, right associativity).

(** A [for] loop whose body may raise: the state is threaded through the
    elements from left to right and the first exception ends the loop. *)
Fixpoint for_each {A St : Type} (xs : list A) (body : A -> St -> result St)
    (s : St) : result St :=
  match xs with
  | [] => Ok s
  | x :: xs' => s' <- body x s ;; for_each xs' body s'
  end.

(** ** Characters and strings *)

Module Char.

Definition code (c : ascii) : N := N_of_ascii c.

Definition between (lo hi : N) (c : ascii) : bool :=
  ((lo <=? code c) && (code c <=? hi))%N.

Definition code_is (n : N) (c : ascii) : bool := (code c =? n)%N.

(** Code points with an upper-case letter whose lower-case partner is 32
    further: A-Z and the Latin-1 capitals U+00C0..U+00DE, the
    multiplication sign U+00D7 excepted. *)
Definition is_upper (c : ascii) : bool :=
  between 65 90 c || (between 192 222 c && negb (code_is 215 c)).

Definition lower (c : ascii) : ascii :=
  if is_upper c then ascii_of_N (code c + 32) else c.

Definition upper (c : ascii) : ascii :=
  if between 97 122 c then ascii_of_N (code c - 32) else c.

(** [\d]: a decimal digit. *)
Definition is_digit (c : ascii) : bool := between 48 57 c.

(** [str.isalpha] on one code point. *)
Definition is_alpha (c : ascii) : bool :=
  between 65 90 c || between 97 122 c
  || code_is 170 c || code_is 181 c || code_is 186 c
  || between 192 214 c || between 216 246 c || between 248 255 c.

(** Superscript digits and vulgar fractions: numeric, not decimal. *)
Definition is_numeric (c : ascii) : bool :=
  is_digit c || code_is 178 c || code_is 179 c || code_is 185 c || between 188 190 c.

(** [\w]: alphanumeric or the underscore. *)
Definition is_word (c : ascii) : bool :=
  is_alpha c || is_numeric c || code_is 95 c.

(** [\s]: white space. *)
Definition is_space (c : ascii) : bool :=
  between 9 13 c || between 28 32 c || code_is 133 c || code_is 160 c.

End Char.

(** [str.lower()] *)
Fixpoint lower (s : string) : string :=
  match s with
  | EmptyString => EmptyString
  | String c s' => String (Char.lower c) (lower s')
  end.

(** [str.capitalize()], for identifiers made of ASCII letters (the agent
    names are): first character upper-cased, the others lower-cased. *)
Definition capitalize (s : string) : string :=
  match s with
  | EmptyString => EmptyString
  | String c s' => String (Char.upper c) (lower s')
  end.

(** [match_word w s]: the rest of [s] when [s] starts with [w]. *)
Fixpoint match_word (w s : string) : option string :=
  match w with
  | EmptyString => Some s
  | String a w' =>
      match s with
      | EmptyString => None
      | String b s' => if Ascii.eqb a b then match_word w' s' else None
      end
  end.

(** [keyword in s] *)
Fixpoint contains (keyword s : string) : bool :=
  match match_word keyword s with
  | Some _ => true
  | None =>
      match s with
      | EmptyString => false
      | String _ s' => contains keyword s'
      end
  end.

(** [s[:n]] *)
Fixpoint take (n : nat) (s : string) : string :=
  match n, s with
  | S n', String c s' => String c (take n' s')
  | _, _ => EmptyString
  end.

(** ** Regular expressions

    The patterns of the rule table are sequences of three kinds of items:
    the assertion [\b], a group of literal alternatives [(w1|w2|...)], and a
    character class repeated one or more times ([\s+], [[...]+]). *)

Inductive atom : Type :=
| WordBoundary
| Alternatives (words : list string)
| OneOrMore (class : ascii -> bool).

Definition regex : Type := list atom.

(** A matcher is run at a position of the subject: it sees the character
    before the position, if any, and the text from the position on. *)
Definition matcher : Type := option ascii -> string -> bool.

Definition word_char (c : option ascii) : bool :=
  match c with
  | Some a => Char.is_word a
  | None => false
  end.

Definition next_char (s : string) : option ascii :=
  match s with
  | EmptyString => None
  | String c _ => Some c
  end.

(** [\b] holds where exactly one of the two neighbours is a word character;
    outside the subject there is none. *)
Definition at_boundary (prev : option ascii) (s : string) : bool :=
  xorb (word_char prev) (word_char (next_char s)).

(** The character before the position reached by reading [w]. *)
Fixpoint last_char (w : string) (prev : option ascii) : option ascii :=
  match w with
  | EmptyString => prev
  | String c w' => last_char w' (Some c)
  end.

(** One or more characters of [class], then [k]: every number of
    repetitions is tried. *)
Fixpoint one_or_more (class : ascii -> bool) (k : matcher) (s : string)
    : bool :=
  match s with
  | EmptyString => false
  | String c s' => class c && (k (Some c) s' || one_or_more class k s')
  end.

Definition match_atom (a : atom) (k : matcher) : matcher :=
  fun prev s =>
    match a with
    | WordBoundary => at_boundary prev s && k prev s
    | Alternatives words =>
        existsb (fun w =>
                   match match_word w s with
                   | Some rest => k (last_char w prev) rest
                   | None => false
                   end) words
    | OneOrMore class => one_or_more class k s
    end.

(** Does the pattern match at this position? *)
Definition match_here (r : regex) : matcher :=
  fold_right match_atom (fun _ _ => true) r.

Fixpoint search_from (r : regex) (prev : option ascii) (s : string) : bool :=
  match_here r prev s
  || match s with
     | EmptyString => false
     | String c s' => search_from r (Some c) s'
     end.

(** The truth value of [re.search(pattern, s)]: the pattern matches at some
    position of [s]. *)
Definition re_search (r : regex) (s : string) : bool :=
  search_from r None s.

(** [[\d\+\-\*\/\=\%\(\)]] *)
Definition math_class (c : ascii) : bool :=
  Char.is_digit c
  || existsb (Ascii.eqb c) (list_ascii_of_string "+-*/=%()").

(** [\b(w1|w2|...)\b] *)
Definition words (ws : list string) : regex :=
  [WordBoundary; Alternatives ws; WordBoundary].

(** ** Dictionaries *)

Section Dict.

Context {V : Type}.

Definition dict : Type := list (string * V).

Definition keys (d : dict) : list string := map fst d.
Definition values (d : dict) : list V := map snd d.

(** [d.get(k)] as an option *)
Fixpoint lookup (d : dict) (k : string) : option V :=
  match d with
  | [] => None
  | (k', v) :: d' => if String.eqb k' k then Some v else lookup d' k
  end.

(** [d[k]] *)
Definition getitem (d : dict) (k : string) : result V :=
  match lookup d k with
  | Some v => Ok v
  | None => Raise (KeyError k)
  end.

(** [d[k] = v]: a key already present keeps its place, a new key goes to
    the end. *)
Fixpoint setitem (d : dict) (k : string) (v : V) : dict :=
  match d with
  | [] => [(k, v)]
  | (k', v') :: d' =>
      if String.eqb k' k then (k', v) :: d' else (k', v') :: setitem d' k v
  end.

(** [d.get(k, default)] *)
Definition get (d : dict) (k : string) (default : V) : V :=
  match lookup d k with
  | Some v => v
  | None => default
  end.

End Dict.

Arguments dict V : clear implicits.

(** [d[k] += n] *)
Definition iadd (d : dict Z) (k : string) (n : Z) : result (dict Z) :=
  v <- getitem d k ;; Ok (setitem d k (v + n)).

(** [max(xs)] *)
Definition py_max (xs : list Z) : result Z :=
  match xs with
  | [] => Raise ValueError
  | x :: xs' => Ok (fold_left Z.max xs' x)
  end.

(** [xs[0]] *)
Definition first {A : Type} (xs : list A) : result A :=
  match xs with
  | [] => Raise IndexError
  | x :: _ => Ok x
  end.

(** ** The rule table *)

Record rule : Type := {
  agent : string;
  patterns : list regex;
  keywords : list string;
  reason : string
}.

Definition classification_rules : list rule := [
  {| agent := "codex";
     patterns := [
       words ["code"; "program"; "function"; "script"; "debug"; "compile";
              "syntax"; "api"; "app"; "software"; "develop"];
       words ["react"; "vue"; "angular"; "django"; "flask"; "node";
              "express"; "python"; "java"; "javascript"; "html"; "css"];
       words ["algorithm"; "data structure"; "class"; "object"; "method";
              "variable"; "loop"; "array"];
       words ["programming"; "coding"; "software development"; "web dev"]
     ];
     keywords := ["write code"; "fix bug"; "create function"; "program";
                  "debug"; "build app"];
     reason := "Programming/code request detected" |};
  {| agent := "perplexity";
     patterns := [
       words ["link"; "source"; "reference"; "citation"; "article";
              "research"; "paper"; "find"; "search"; "google"; "look up"];
       words ["where can I"; "find me"; "search for"; "give me sources";
              "list of resources"]
     ];
     keywords := ["sources"; "references"; "links"; "citations"; "research"];
     reason := "Source/link request detected" |};
  {| agent := "gemini";
     patterns := [
       words ["fact"; "history"; "date"; "location"; "famous"; "population";
              "culture"; "definition"; "meaning"];
       [WordBoundary; Alternatives ["who"; "what"; "where"; "when"];
        OneOrMore Char.is_space;
        Alternatives ["is"; "are"; "was"; "were"; "did"; "does"];
        WordBoundary];
       words ["factual"; "knowledge"; "google"; "search"; "information";
              "dictionary"]
     ];
     keywords := ["tell me about"; "what is"; "who is"; "when did";
                  "where is"; "define"];
     reason := "Factual knowledge/lookup request detected" |};
  {| agent := "deepseek";
     patterns := [
       words ["explain in detail"; "comprehensive"; "thorough"; "in-depth";
              "elaborate"; "detailed"];
       words ["long form"; "essay"; "extensive"; "complete guide";
              "full explanation"]
     ];
     keywords := ["explain thoroughly"; "detailed analysis";
                  "comprehensive guide"; "in depth"];
     reason := "Long-form explanation requested" |};
  {| agent := "gpai";
     patterns := [
       [OneOrMore math_class];
       words ["calculate"; "solve"; "equation"; "math"; "algebra";
              "calculus"; "geometry"; "puzzle"; "logic"];
       words ["compute"; "sum"; "difference"; "product"; "quotient";
              "modulo"; "derivative"; "integral"]
     ];
     keywords := ["solve this"; "calculate"; "math problem"; "equation";
                  "formula"];
     reason := "Math/logic/puzzle request detected" |};
  {| agent := "chatgpt";
     patterns := [
       words ["opinion"; "thoughts"; "perspective"; "general"; "anyway";
              "basically"; "overall"]
     ];
     keywords := [];
     reason := "General knowledge/conversational query" |}
].

(** ** [route_prompt] *)

Record routing : Type := {
  routing_agent : string;
  routing_reason : string
}.

(** [for pattern in rule['patterns']: if re.search(...): scores[agent] += 3] *)
Definition check_patterns (prompt_lower : string) (r : rule)
    : dict Z -> result (dict Z) :=
  for_each (patterns r) (fun pattern scores =>
    if re_search pattern prompt_lower then iadd scores (agent r) 3
    else Ok scores).

(** [for keyword in rule['keywords']: if keyword in ...: scores[agent] += 5] *)
Definition check_keywords (prompt_lower : string) (r : rule)
    : dict Z -> result (dict Z) :=
  for_each (keywords r) (fun keyword scores =>
    if contains keyword prompt_lower then iadd scores (agent r) 5
    else Ok scores).

(** The scoring of lines 121-138: the dict comprehension, the loop over the
    rules, and the bonus of the default agent. *)
Definition score_agents (rules : list rule) (prompt_lower : string)
    : result (dict Z) :=
  let scores := fold_left (fun d r => setitem d (agent r) 0) rules [] in
  scores <- for_each rules (fun r scores =>
              scores <- check_patterns prompt_lower r scores ;;
              check_keywords prompt_lower r scores) scores ;;
  iadd scores "chatgpt" 1.

(** [[agent for agent, score in scores.items() if score == max_score]] *)
Definition top_agents (scores : dict Z) (max_score : Z) : list string :=
  keys (filter (fun item => snd item =? max_score) scores).

(** The loop that fetches the reason of the selected agent, and the return
    after it. *)
Definition reason_of (rules : list rule) (selected_agent : string)
    : routing :=
  match find (fun r => String.eqb (agent r) selected_agent) rules with
  | Some r => {| routing_agent := selected_agent;
                 routing_reason := reason r |}
  | None => {| routing_agent := "chatgpt";
               routing_reason := "Default routing" |}
  end.

Definition no_intent : routing :=
  {| routing_agent := "chatgpt";
     routing_reason :=
       "No specific intent detected - routing to general assistant" |}.

Definition route_prompt_with (rules : list rule) (prompt_text : string)
    : result routing :=
  let prompt_lower := lower prompt_text in
  scores <- score_agents rules prompt_lower ;;
  max_score <- py_max (values scores) ;;
  if max_score =? 0 then Ok no_intent
  else
    selected_agent <- first (top_agents scores max_score) ;;
    Ok (reason_of rules selected_agent).

Definition route_prompt (prompt_text : string) : result routing :=
  route_prompt_with classification_rules prompt_text.

(** ** The mock agents

    [random.choice] and [datetime.now] are inputs of the request: [pick] is
    the index [random.choice] draws and [now] the formatted clock. *)

Record reply : Type := {
  reply_agent : string;
  agent_color : string;
  response : string;
  timestamp : string
}.

Definition choice (pick : nat) (xs : list string) : string :=
  nth (pick mod length xs) xs "".

Definition call_chatgpt (pick : nat) (now prompt : string) : reply :=
  let responses := [
    "Based on general knowledge: '"
      ++ take 50 prompt
      ++ "...' relates to various perspectives. ChatGPT would provide a balanced overview considering multiple viewpoints.";
    "ChatGPT analysis: The query '"
      ++ take 40 prompt
      ++ "...' touches on general concepts. Here's what I know from my training data...";
    "General assistant response: I understand you're asking about '"
      ++ take 30 prompt
      ++ "...'. Let me share some general information on this topic."
  ] in
  {| reply_agent := "ChatGPT";
     agent_color := "#10a37f";
     response := choice pick responses;
     timestamp := now |}.

Definition call_gemini (pick : nat) (now prompt : string) : reply :=
  let responses := [
    "Gemini factual lookup: Searching for '"
      ++ take 50 prompt
      ++ "...'. According to verified sources, this involves several key facts and data points.";
    "Based on factual knowledge: '"
      ++ take 40 prompt
      ++ "...' - this is documented in multiple authoritative sources. Let me summarize the key information.";
    "Gemini knowledge search: I've found relevant information about '"
      ++ take 30 prompt
      ++ "...'. Here are the verified facts."
  ] in
  {| reply_agent := "Gemini";
     agent_color := "#1a73e8";
     response := choice pick responses;
     timestamp := now |}.

Definition call_deepseek (pick : nat) (now prompt : string) : reply :=
  let responses := [
    "DeepSeek detailed analysis: Let me provide a comprehensive explanation of '"
      ++ take 40 prompt
      ++ "...' This topic has several layers to explore...";
    "In-depth explanation requested for: '"
      ++ take 30 prompt
      ++ "...' I'll break this down into detailed components and elaborate on each aspect.";
    "DeepSeek long-form response: Your query about '"
      ++ take 35 prompt
      ++ "...' requires thorough examination. Let me provide a complete guide."
  ] in
  {| reply_agent := "DeepSeek";
     agent_color := "#4b6bfb";
     response := choice pick responses;
     timestamp := now |}.

Definition call_perplexity (pick : nat) (now prompt : string) : reply :=
  let responses := [
    "Perplexity sources: I found multiple references for '"
      ++ take 45 prompt
      ++ "...'. Here are relevant sources with citations and links.";
    "Source compilation for: '"
      ++ take 35 prompt
      ++ "...' - I've gathered information from academic papers, articles, and verified references.";
    "Perplexity research: Regarding '"
      ++ take 40 prompt
      ++ "...', here are the key sources and references with their credibility assessments."
  ] in
  {| reply_agent := "Perplexity";
     agent_color := "#5436da";
     response := choice pick responses;
     timestamp := now |}.

Definition call_gpai (pick : nat) (now prompt : string) : reply :=
  let responses := [
    "GPAI logical reasoning: Analyzing '"
      ++ take 40 prompt
      ++ "...' through mathematical frameworks. The solution involves several computational steps.";
    "Math/Logic processing: For '"
      ++ take 35 prompt
      ++ "...', I've computed the result using formal logic and mathematical operations.";
    "GPAI puzzle solver: Your query '"
      ++ take 30 prompt
      ++ "...' requires logical deduction. Here's my step-by-step reasoning."
  ] in
  {| reply_agent := "GPAI";
     agent_color := "#ff6b4a";
     response := choice pick responses;
     timestamp := now |}.

Definition call_codex (pick : nat) (now prompt : string) : reply :=
  let responses := [
    "Codex programming: For '"
      ++ take 40 prompt
      ++ "...', here's a code solution with implementation details and best practices.";
    "Software development: Analyzing '"
      ++ take 35 prompt
      ++ "...' - I'll provide a clean, efficient implementation with documentation.";
    "Codex assistance: Your coding request '"
      ++ take 30 prompt
      ++ "...' can be solved with this optimized approach."
  ] in
  {| reply_agent := "Codex";
     agent_color := "#ff6e4a";
     response := choice pick responses;
     timestamp := now |}.

(** ** The request handlers

    The state is the module-level [subscriptions] dict and the
    [request_history] of the session the requests belong to ([None] while the
    session has no such key).  The two search handlers build their answer
    from [route_prompt] and the mock agents and touch neither; they are left
    out. *)

Record history_entry : Type := {
  entry_prompt : string;
  entry_agent : string;
  entry_timestamp : string;
  entry_routing_reason : string
}.

Record world : Type := {
  subscriptions : dict bool;
  session : option (list history_entry)
}.

Definition initial_world : world :=
  {| subscriptions := [("chatgpt", true); ("gemini", true);
                       ("deepseek", true); ("perplexity", true);
                       ("gpai", true); ("codex", true)];
     session := None |}.

Definition agent_functions : dict (nat -> string -> string -> reply) :=
  [("chatgpt", call_chatgpt); ("gemini", call_gemini);
   ("deepseek", call_deepseek); ("perplexity", call_perplexity);
   ("gpai", call_gpai); ("codex", call_codex)].

(** The answers of [/prompt]: [success: True] with the routing and the
    agent's reply, or the fall-back to ChatGPT for an agent that is not
    subscribed. *)
Inductive prompt_answer : Type :=
| Routed (routing_ : routing) (response_ : reply)
| NotSubscribed (error : string) (original_agent : string)
                (response_ : reply).

(** The agent the classifier chose, as an answer of [/prompt] shows it:
    [routing['agent']] or [routing['original_agent']]. *)
Definition classified_agent (answer : prompt_answer) : string :=
  match answer with
  | Routed routing_ _ => routing_agent routing_
  | NotSubscribed _ original_agent _ => original_agent
  end.

(** [data.get('prompt', '')] *)
Definition prompt_of (data : option string) : string :=
  match data with
  | Some prompt => prompt
  | None => ""
  end.

Definition make_entry (prompt_text : string) (routing_ : routing)
    (response_ : reply) : history_entry :=
  {| entry_prompt :=
       take 60 prompt_text
       ++ (if (60 <? String.length prompt_text)%nat then "..." else "");
     entry_agent := reply_agent response_;
     entry_timestamp := timestamp response_;
     entry_routing_reason := routing_reason routing_ |}.

Definition history_of (w : world) : list history_entry :=
  match session w with
  | Some h => h
  | None => []
  end.

(** Lines 349-356: the history is created when the session has none, the
    entry is inserted at index 0 and the list is cut to its first 10. *)
Definition add_to_history (w : world) (entry : history_entry) : world :=
  {| subscriptions := subscriptions w;
     session := Some (firstn 10 (entry :: history_of w)) |}.

Definition handle_prompt (w : world) (data : option string)
    (pick : nat) (now : string) : result (prompt_answer * world) :=
  let prompt_text := prompt_of data in
  routing_ <- route_prompt prompt_text ;;
  let agent_name := routing_agent routing_ in
  if negb (get (subscriptions w) agent_name false) then
    Ok (NotSubscribed (capitalize agent_name ++ " is not subscribed")
                      agent_name (call_chatgpt pick now prompt_text), w)
  else
    let agent_function := get agent_functions agent_name call_chatgpt in
    let response_ := agent_function pick now prompt_text in
    let history_entry_ := make_entry prompt_text routing_ response_ in
    Ok (Routed routing_ response_, add_to_history w history_entry_).

(** [/subscription]: [status] is the truth value of the posted status. *)
Definition update_subscription (w : world) (agent_ : option string)
    (status : bool) : bool * world :=
  match agent_ with
  | Some a =>
      match lookup (subscriptions w) a with
      | Some _ =>
          (true, {| subscriptions := setitem (subscriptions w) a status;
                    session := session w |})
      | None => (false, w)
      end
  | None => (false, w)
  end.

(** [/subscription/status]: the dict that is serialised. *)
Definition get_subscriptions (w : world) : dict bool := subscriptions w.

Record router_test_answer : Type := {
  test_prompt : string;
  test_routing : routing;
  subscription_status : bool;
  available_agents : list string
}.

(** [/router-test] *)
Definition router_test (w : world) (data : option string)
    : result (router_test_answer * world) :=
  let prompt_text := prompt_of data in
  routing_ <- route_prompt prompt_text ;;
  Ok ({| test_prompt := prompt_text;
         test_routing := routing_;
         subscription_status :=
           get (subscriptions w) (routing_agent routing_) false;
         available_agents := keys (subscriptions w) |}, w).

(** [/history] *)
Definition get_history (w : world) : list history_entry * world :=
  (history_of w,
   {| subscriptions := subscriptions w; session := Some (history_of w) |}).

(** [/history/clear] *)
Definition clear_history (w : world) : world :=
  {| subscriptions := subscriptions w; session := Some [] |}.

(** The requests a client can send, and the state after each. *)
Inductive request : Type :=
| PostPrompt (data : option string) (pick : nat) (now : string)
| PostSubscription (agent_ : option string) (status : bool)
| PostRouterTest (data : option string)
| GetHistory
| PostHistoryClear.

Definition serve (w : world) (r : request) : result world :=
  match r with
  | PostPrompt data pick now =>
      out <- handle_prompt w data pick now ;; Ok (snd out)
  | PostSubscription agent_ status =>
      Ok (snd (update_subscription w agent_ status))
  | PostRouterTest data => out <- router_test w data ;; Ok (snd out)
  | GetHistory => Ok (snd (get_history w))
  | PostHistoryClear => Ok (clear_history w)
  end.

Definition serve_all (w : world) (rs : list request) : result world :=
  for_each rs (fun r w' => serve w' r) w.

(** Is every agent of the rule table subscribed? *)
Definition all_subscribed (w : world) : bool :=
  forallb (fun r => get (subscriptions w) (agent r) false)
          classification_rules.

(** A run of [/prompt] requests, each with its body, random draw and
    clock. *)
Definition prompt_requests (posts : list (option string * nat * string))
    : list request :=
  map (fun post => PostPrompt (fst (fst post)) (snd (fst post)) (snd post))
      posts.

(** Does no agent but chatgpt score? *)
Definition only_chatgpt_scores (scores : dict Z) : bool :=
  forallb (fun item => String.eqb (fst item) "chatgpt" || (snd item =? 0))
          scores.

(** ** The specification's vocabulary *)

(** The number of elements of [xs] that pass [test]. *)
Definition count {A : Type} (test : A -> bool) (xs : list A) : Z :=
  Z.of_nat (length (filter test xs)).

(** The score the specification gives the agent of a rule: 3 for each
    pattern that matches somewhere, 5 for each keyword that occurs, and the
    bonus of 1 for chatgpt. *)
Definition expected_score (prompt_lower : string) (r : rule) : Z :=
  3 * count (fun pattern => re_search pattern prompt_lower) (patterns r)
  + 5 * count (fun keyword => contains keyword prompt_lower) (keywords r)
  + (if String.eqb (agent r) "chatgpt" then 1 else 0).

(** The same without the bonus: what the patterns and keywords add. *)
Definition matched (prompt_lower : string) (r : rule) : Z :=
  3 * count (fun pattern => re_search pattern prompt_lower) (patterns r)
  + 5 * count (fun keyword => contains keyword prompt_lower) (keywords r).

Definition expected_scores (rules : list rule) (prompt_lower : string)
    : dict Z :=
  map (fun r => (agent r, expected_score prompt_lower r)) rules.

(** The order in which the specification lists the agents. *)
Definition declaration_order : list string :=
  ["codex"; "perplexity"; "gemini"; "deepseek"; "gpai"; "chatgpt"].

(** The place of [a] in [l], counted from 0; [length l] when absent. *)
Fixpoint position (a : string) (l : list string) : nat :=
  match l with
  | [] => 0%nat
  | b :: l' => if String.eqb b a then 0%nat else S (position a l')
  end.

(** The reading of "whenever any other agent's score equals or exceeds
    chatgpt's, that other agent (or an earlier-declared one) wins": the
    winner is declared no later than that agent. *)
Definition rival_or_earlier_wins : Prop :=
  forall prompt scores winner rival v c,
    score_agents classification_rules (lower prompt) = Ok scores ->
    route_prompt prompt = Ok winner ->
    rival <> "chatgpt" ->
    lookup scores rival = Some v ->
    lookup scores "chatgpt" = Some c ->
    c <= v ->
    (position (routing_agent winner) declaration_order
     <= position rival declaration_order)%nat.

(** ** Lemmas on dictionaries *)

Local Open Scope list_scope.

Section DictFacts.

Context {V : Type}.
Implicit Types (d : dict V) (k : string) (v : V).

Lemma keys_app d1 d2 : keys (d1 ++ d2) = keys d1 ++ keys d2.
Proof. apply map_app. Qed.

Lemma lookup_In d k v : lookup d k = Some v -> In (k, v) d.
Proof.
  induction d as [|[k' v'] d IH]; simpl; [discriminate|].
  destruct (String.eqb_spec k' k) as [->|_].
  - intros [= ->]. now left.
  - intros H. right. now apply IH.
Qed.

Lemma lookup_keys d k v : lookup d k = Some v -> In k (keys d).
Proof.
  intros H. apply lookup_In in H.
  change k with (fst (k, v)). now apply in_map.
Qed.

Lemma lookup_middle d1 d2 k v :
  ~ In k (keys d1) -> lookup (d1 ++ (k, v) :: d2) k = Some v.
Proof.
  induction d1 as [|[k' v'] d1 IH]; simpl; intros Hk.
  - now rewrite String.eqb_refl.
  - destruct (String.eqb_spec k' k) as [->|_]; [tauto|].
    apply IH. tauto.
Qed.

Lemma setitem_middle d1 d2 k v v' :
  ~ In k (keys d1) ->
  setitem (d1 ++ (k, v) :: d2) k v' = d1 ++ (k, v') :: d2.
Proof.
  induction d1 as [|[k' w] d1 IH]; simpl; intros Hk.
  - now rewrite String.eqb_refl.
  - destruct (String.eqb_spec k' k) as [->|_]; [tauto|].
    f_equal. apply IH. tauto.
Qed.

Lemma setitem_new d k v : ~ In k (keys d) -> setitem d k v = d ++ [(k, v)].
Proof.
  induction d as [|[k' w] d IH]; simpl; intros Hk; [reflexivity|].
  destruct (String.eqb_spec k' k) as [->|_]; [tauto|].
  f_equal. apply IH. tauto.
Qed.

End DictFacts.

Lemma iadd_middle (d1 d2 : dict Z) k v n :
  ~ In k (keys d1) ->
  iadd (d1 ++ (k, v) :: d2) k n = Ok (d1 ++ (k, v + n) :: d2).
Proof.
  intros Hk. unfold iadd, getitem.
  rewrite lookup_middle by assumption. simpl.
  now rewrite setitem_middle.
Qed.

Lemma count_cons {A : Type} (test : A -> bool) x xs :
  count test (x :: xs) = (if test x then 1 else 0) + count test xs.
Proof.
  unfold count. simpl. destruct (test x); simpl length; lia.
Qed.

Lemma count_nonneg {A : Type} (test : A -> bool) xs : 0 <= count test xs.
Proof. unfold count. lia. Qed.

(** A loop that adds [n] to one entry for each element passing a test adds
    [n] times their number. *)
Lemma for_each_iadd {A : Type} (test : A -> bool) (xs : list A) k n
    (d1 d2 : dict Z) v :
  ~ In k (keys d1) ->
  for_each xs (fun x scores => if test x then iadd scores k n else Ok scores)
           (d1 ++ (k, v) :: d2)
  = Ok (d1 ++ (k, v + n * count test xs) :: d2).
Proof.
  intros Hk. revert v.
  induction xs as [|x xs IH]; intros v; simpl.
  - replace (v + n * count test []) with v by (unfold count; simpl; lia).
    reflexivity.
  - rewrite count_cons. destruct (test x).
    + rewrite iadd_middle by assumption. simpl. rewrite IH.
      now replace (v + n + n * count test xs)
        with (v + n * (1 + count test xs)) by lia.
    + simpl. rewrite IH.
      now replace (v + n * (0 + count test xs))
        with (v + n * count test xs) by lia.
Qed.

Lemma snoc_app {A : Type} (l : list A) x l' : l ++ x :: l' = (l ++ [x]) ++ l'.
Proof. now rewrite <- app_assoc. Qed.

Lemma not_in_keys {V : Type} (d : dict V) k ks :
  NoDup (keys d ++ k :: ks) -> ~ In k (keys d).
Proof.
  intros Hnd Hin. apply NoDup_remove_2 in Hnd. apply Hnd.
  apply in_or_app. now left.
Qed.

Lemma NoDup_snoc_keys {V : Type} (d : dict V) k v ks :
  NoDup (keys d ++ k :: ks) -> NoDup (keys (d ++ [(k, v)]) ++ ks).
Proof. intros Hnd. rewrite keys_app. simpl. now rewrite <- app_assoc. Qed.

(** ** The scoring loop *)

Section Scoring.

Variable prompt_lower : string.

Lemma initial_scores rules (d : dict Z) :
  NoDup (keys d ++ map agent rules) ->
  fold_left (fun d r => setitem d (agent r) 0) rules d
  = d ++ map (fun r => (agent r, 0)) rules.
Proof.
  revert d. induction rules as [|r rules IH]; intros d Hnd.
  - simpl. now rewrite app_nil_r.
  - cbn [fold_left map] in *.
    rewrite setitem_new by (eapply not_in_keys; eassumption).
    rewrite IH by (apply NoDup_snoc_keys; assumption).
    now rewrite <- snoc_app.
Qed.

Lemma rule_body r (d1 d2 : dict Z) v :
  ~ In (agent r) (keys d1) ->
  (scores <- check_patterns prompt_lower r (d1 ++ (agent r, v) :: d2) ;;
   check_keywords prompt_lower r scores)
  = Ok (d1 ++ (agent r, v + matched prompt_lower r) :: d2).
Proof.
  intros Hk. unfold check_patterns, check_keywords.
  rewrite for_each_iadd by assumption. cbn [bind].
  rewrite for_each_iadd by assumption.
  unfold matched. now rewrite Z.add_assoc.
Qed.

Lemma rule_loop rules (d : dict Z) :
  NoDup (keys d ++ map agent rules) ->
  for_each rules (fun r scores =>
                    scores <- check_patterns prompt_lower r scores ;;
                    check_keywords prompt_lower r scores)
           (d ++ map (fun r => (agent r, 0)) rules)
  = Ok (d ++ map (fun r => (agent r, matched prompt_lower r)) rules).
Proof.
  revert d. induction rules as [|r rules IH]; intros d Hnd.
  - reflexivity.
  - cbn [for_each map] in *.
    rewrite rule_body by (eapply not_in_keys; eassumption).
    cbn [bind]. rewrite Z.add_0_l.
    rewrite snoc_app.
    rewrite IH by (apply NoDup_snoc_keys; assumption).
    now rewrite <- snoc_app.
Qed.

(** The bonus lands on the entry of the rule it names. *)
Lemma bonus rules k n (f : rule -> Z) :
  NoDup (map agent rules) -> In k (map agent rules) ->
  iadd (map (fun r => (agent r, f r)) rules) k n
  = Ok (map (fun r => (agent r,
                       f r + (if String.eqb (agent r) k then n else 0)))
            rules).
Proof.
  intros Hnd Hin.
  apply in_map_iff in Hin. destruct Hin as (r & <- & Hr).
  apply in_split in Hr. destruct Hr as (l1 & l2 & ->).
  rewrite map_app in Hnd. cbn [map] in Hnd.
  assert (H1 : forall x, In x l1 -> String.eqb (agent x) (agent r) = false).
  { intros x Hx. apply String.eqb_neq. intros Heq.
    apply NoDup_remove_2 in Hnd. apply Hnd. apply in_or_app. left.
    rewrite <- Heq. now apply in_map. }
  assert (H2 : forall x, In x l2 -> String.eqb (agent x) (agent r) = false).
  { intros x Hx. apply String.eqb_neq. intros Heq.
    apply NoDup_remove_2 in Hnd. apply Hnd. apply in_or_app. right.
    rewrite <- Heq. now apply in_map. }
  rewrite !map_app. cbn [map]. rewrite String.eqb_refl.
  change (map (fun r0 => (agent r0, f r0)) l1)
    with (map (fun r0 => (agent r0, f r0)) l1 : dict Z).
  rewrite iadd_middle.
  - f_equal. f_equal; [|f_equal].
    + apply map_ext_in. intros x Hx. rewrite (H1 x Hx).
      now rewrite Z.add_0_r.
    + apply map_ext_in. intros x Hx. rewrite (H2 x Hx).
      now rewrite Z.add_0_r.
  - unfold keys. rewrite map_map. cbn [fst].
    apply NoDup_remove_2 in Hnd. intros Hin. apply Hnd.
    apply in_or_app. now left.
Qed.

(** The scores [route_prompt] computes are the ones of the
    specification, in the order of the rule table. *)
Lemma score_agents_expected rules :
  NoDup (map agent rules) -> In "chatgpt" (map agent rules) ->
  score_agents rules prompt_lower = Ok (expected_scores rules prompt_lower).
Proof.
  intros Hnd Hin. unfold score_agents.
  pose proof (initial_scores rules [] Hnd) as Hinit.
  pose proof (rule_loop rules [] Hnd) as Hloop.
  cbn [app] in Hinit, Hloop.
  rewrite Hinit, Hloop. cbn [bind].
  rewrite bonus by assumption.
  reflexivity.
Qed.

End Scoring.

(** ** The selection of the winner *)

Lemma fold_max_lower xs x : x <= fold_left Z.max xs x.
Proof.
  revert x. induction xs as [|y xs IH]; intros x; simpl; [lia|].
  specialize (IH (Z.max x y)). lia.
Qed.

Lemma fold_max_upper xs x y : In y xs -> y <= fold_left Z.max xs x.
Proof.
  revert x. induction xs as [|z xs IH]; intros x; simpl; [tauto|].
  intros [->|Hy].
  - pose proof (fold_max_lower xs (Z.max x y)). lia.
  - now apply IH.
Qed.

Lemma fold_max_attained xs x : In (fold_left Z.max xs x) (x :: xs).
Proof.
  revert x. induction xs as [|y xs IH]; intros x; simpl; [now left|].
  destruct (IH (Z.max x y)) as [H|H].
  - rewrite <- H. destruct (Z.max_spec x y) as [[_ ->]|[_ ->]]; tauto.
  - tauto.
Qed.

(** [max] of a list that is not empty returns its greatest element. *)
Lemma py_max_greatest xs :
  xs <> [] ->
  exists m, py_max xs = Ok m /\ In m xs /\ forall x, In x xs -> x <= m.
Proof.
  destruct xs as [|x xs]; [congruence|]. intros _.
  exists (fold_left Z.max xs x). split; [reflexivity|]. split.
  - apply fold_max_attained.
  - intros y [<-|Hy].
    + apply fold_max_lower.
    + now apply fold_max_upper.
Qed.

Lemma position_absent_head a b l :
  a <> b -> position b (a :: l) = S (position b l).
Proof. intros Hab. simpl. now apply String.eqb_neq in Hab as ->. Qed.

(** The first of the top agents is the first key that holds the maximum. *)
Lemma first_top_agent (d : dict Z) m :
  NoDup (keys d) -> In m (values d) ->
  exists a,
    first (top_agents d m) = Ok a /\ lookup d a = Some m /\
    forall c, lookup d c = Some m ->
              (position a (keys d) <= position c (keys d))%nat.
Proof.
  induction d as [|[k v] d IH]; intros Hnd Hin; [destruct Hin|].
  cbn [keys map fst] in Hnd. apply NoDup_cons_iff in Hnd.
  destruct Hnd as [Hk Hnd].
  unfold top_agents. cbn [filter snd].
  destruct (Z.eqb_spec v m) as [->|Hv].
  - exists k. cbn. rewrite String.eqb_refl. repeat split. intros c _. lia.
  - destruct Hin as [Hin|Hin]; [cbn in Hin; congruence|].
    destruct (IH Hnd Hin) as (a & Hfirst & Ha & Hleast).
    exists a. split; [exact Hfirst|].
    assert (Hka : k <> a).
    { intros ->. apply Hk. eapply lookup_keys. exact Ha. }
    split.
    + cbn. now apply String.eqb_neq in Hka as ->.
    + intros c Hc. cbn [lookup] in Hc.
      destruct (String.eqb_spec k c) as [->|Hkc]; [congruence|].
      change (keys ((k, v) :: d)) with (k :: keys d).
      rewrite !position_absent_head by assumption.
      apply le_n_S. now apply Hleast.
Qed.

Lemma find_agent rules a :
  In a (map agent rules) ->
  exists r, find (fun r => String.eqb (agent r) a) rules = Some r
            /\ In r rules /\ agent r = a.
Proof.
  induction rules as [|r rules IH]; intros Hin; [destruct Hin|].
  cbn [find]. destruct (String.eqb_spec (agent r) a) as [Heq|Hne].
  - exists r. repeat split; [now left|exact Heq].
  - destruct Hin as [Hin|Hin]; [contradiction|].
    destruct (IH Hin) as (r' & Hfind & Hr' & Ha).
    exists r'. repeat split; [exact Hfind|now right|exact Ha].
Qed.

Lemma keys_expected_scores rules prompt_lower :
  keys (expected_scores rules prompt_lower) = map agent rules.
Proof. unfold keys, expected_scores. rewrite map_map. reflexivity. Qed.

Lemma expected_score_nonneg prompt_lower r : 0 <= expected_score prompt_lower r.
Proof.
  unfold expected_score.
  pose proof (count_nonneg (fun pattern => re_search pattern prompt_lower)
                           (patterns r)).
  pose proof (count_nonneg (fun keyword => contains keyword prompt_lower)
                           (keywords r)).
  destruct (String.eqb (agent r) "chatgpt"); lia.
Qed.

Lemma expected_score_chatgpt prompt_lower r :
  agent r = "chatgpt" -> 1 <= expected_score prompt_lower r.
Proof.
  intros Ha. unfold expected_score. rewrite Ha.
  pose proof (count_nonneg (fun pattern => re_search pattern prompt_lower)
                           (patterns r)).
  pose proof (count_nonneg (fun keyword => contains keyword prompt_lower)
                           (keywords r)).
  rewrite String.eqb_refl. lia.
Qed.

(** What [route_prompt_with] does on a table that names each agent once and
    has a rule for chatgpt. *)
Lemma route_prompt_with_selects rules prompt_text :
  NoDup (map agent rules) -> In "chatgpt" (map agent rules) ->
  let scores := expected_scores rules (lower prompt_text) in
  exists m a r,
    score_agents rules (lower prompt_text) = Ok scores
    /\ py_max (values scores) = Ok m
    /\ 1 <= m
    /\ (forall k v, lookup scores k = Some v -> v <= m)
    /\ first (top_agents scores m) = Ok a
    /\ lookup scores a = Some m
    /\ (forall c, lookup scores c = Some m ->
                  (position a (map agent rules)
                   <= position c (map agent rules))%nat)
    /\ In r rules /\ agent r = a
    /\ route_prompt_with rules prompt_text
       = Ok {| routing_agent := a; routing_reason := reason r |}.
Proof.
  intros Hnd Hchat scores.
  pose proof (score_agents_expected (lower prompt_text) rules Hnd Hchat)
    as Hscores. fold scores in Hscores.
  assert (Hkeys : keys scores = map agent rules)
    by apply keys_expected_scores.
  destruct (py_max_greatest (values scores)) as (m & Hmax & Hm & Hle).
  { apply in_map_iff in Hchat. destruct Hchat as (r & _ & Hr).
    intros Hnil. apply (in_map (fun r => (agent r, expected_score (lower prompt_text) r))) in Hr.
    apply (in_map snd) in Hr. fold (expected_scores rules (lower prompt_text)) in Hr.
    fold scores in Hr. fold (values scores) in Hr. rewrite Hnil in Hr.
    destruct Hr. }
  assert (H1 : 1 <= m).
  { apply in_map_iff in Hchat. destruct Hchat as (r & Ha & Hr).
    pose proof (expected_score_chatgpt (lower prompt_text) r Ha).
    enough (expected_score (lower prompt_text) r <= m) by lia.
    apply Hle. unfold values, scores, expected_scores. rewrite map_map.
    cbn [snd]. now apply (in_map (expected_score (lower prompt_text))). }
  destruct (first_top_agent scores m) as (a & Hfirst & Ha & Hleast);
    [now rewrite Hkeys|exact Hm|].
  rewrite Hkeys in Hleast.
  destruct (find_agent rules a) as (r & Hfind & Hr & Hra).
  { rewrite <- Hkeys. eapply lookup_keys. exact Ha. }
  exists m, a, r. repeat split; try assumption.
  - intros k v Hkv. apply Hle. apply lookup_In in Hkv.
    now apply (in_map snd) in Hkv.
  - unfold route_prompt_with. rewrite Hscores. cbn [bind].
    rewrite Hmax. cbn [bind].
    destruct (Z.eqb_spec m 0) as [H0|_]; [lia|].
    rewrite Hfirst. cbn [bind]. unfold reason_of. now rewrite Hfind.
Qed.

(** ** The rule table of [route_prompt] *)

Lemma rules_agents : map agent classification_rules = declaration_order.
Proof. reflexivity. Qed.

Lemma agents_distinct : NoDup (map agent classification_rules).
Proof.
  rewrite rules_agents. unfold declaration_order.
  repeat constructor; cbn; intuition discriminate.
Qed.

Lemma chatgpt_declared : In "chatgpt" (map agent classification_rules).
Proof. rewrite rules_agents. cbn. tauto. Qed.

Lemma route_prompt_selects prompt_text :
  let scores := expected_scores classification_rules (lower prompt_text) in
  exists m a r,
    score_agents classification_rules (lower prompt_text) = Ok scores
    /\ py_max (values scores) = Ok m
    /\ 1 <= m
    /\ (forall k v, lookup scores k = Some v -> v <= m)
    /\ first (top_agents scores m) = Ok a
    /\ lookup scores a = Some m
    /\ (forall c, lookup scores c = Some m ->
                  (position a declaration_order
                   <= position c declaration_order)%nat)
    /\ In r classification_rules /\ agent r = a
    /\ route_prompt prompt_text
       = Ok {| routing_agent := a; routing_reason := reason r |}.
Proof.
  exact (route_prompt_with_selects classification_rules prompt_text
           agents_distinct chatgpt_declared).
Qed.

Lemma declared_keys prompt_lower :
  keys (expected_scores classification_rules prompt_lower)
  = declaration_order.
Proof. now rewrite keys_expected_scores. Qed.

Lemma before_chatgpt b :
  In b declaration_order -> b <> "chatgpt" ->
  (position b declaration_order < position "chatgpt" declaration_order)%nat.
Proof.
  intros Hin Hb. cbn in Hin.
  destruct Hin as [<-|[<-|[<-|[<-|[<-|[<-|[]]]]]]]; cbn; try lia.
  congruence.
Qed.

Lemma rule_reason_not_fallback r :
  In r classification_rules -> reason r <> routing_reason no_intent.
Proof.
  intros Hin. cbn in Hin.
  destruct Hin as [<-|[<-|[<-|[<-|[<-|[<-|[]]]]]]]; cbn; discriminate.
Qed.

Lemma lower_char_idempotent c : Char.lower (Char.lower c) = Char.lower c.
Proof.
  destruct c as [b0 b1 b2 b3 b4 b5 b6 b7].
  destruct b0, b1, b2, b3, b4, b5, b6, b7; reflexivity.
Qed.

Lemma lower_idempotent s : lower (lower s) = lower s.
Proof.
  induction s as [|c s IH]; simpl; [reflexivity|].
  now rewrite lower_char_idempotent, IH.
Qed.

Lemma newest_first {A : Type} (x : A) l :
  firstn 10 (x :: l) = x :: firstn 9 l.
Proof. reflexivity. Qed.

(** ** The history under every sequence of requests *)

Lemma add_to_history_bounded w entry :
  (length (history_of (add_to_history w entry)) <= 10)%nat.
Proof.
  unfold add_to_history, history_of. cbn [session].
  apply firstn_le_length.
Qed.

Lemma serve_keeps_history_bounded w r w' :
  (length (history_of w) <= 10)%nat ->
  serve w r = Ok w' ->
  (length (history_of w') <= 10)%nat.
Proof.
  intros Hw. destruct r as [data pick now|agent_ status|data| |];
    cbn [serve].
  - unfold handle_prompt.
    destruct (route_prompt (prompt_of data)) as [answer|e]; cbn [bind];
      [|discriminate].
    destruct (negb (get (subscriptions w) (routing_agent answer) false));
      cbn [snd]; intros [= <-]; [exact Hw|apply add_to_history_bounded].
  - unfold update_subscription.
    destruct agent_ as [a|]; [|now intros [= <-]].
    destruct (lookup (subscriptions w) a); intros [= <-]; exact Hw.
  - unfold router_test.
    destruct (route_prompt (prompt_of data)) as [answer|e]; cbn [bind snd];
      [|discriminate].
    now intros [= <-].
  - intros [= <-]. exact Hw.
  - intros [= <-]. cbn. lia.
Qed.

(** Whatever requests were served since start-up, the history of the
    session holds at most 10 entries. *)
Lemma history_bounded rs w :
  serve_all initial_world rs = Ok w -> (length (history_of w) <= 10)%nat.
Proof.
  unfold serve_all.
  assert (Hinit : (length (history_of initial_world) <= 10)%nat)
    by (cbn; lia).
  revert Hinit. generalize initial_world as w0. revert w.
  induction rs as [|r rs IH]; intros w w0 Hw0; cbn [for_each].
  - now intros [= <-].
  - destruct (serve w0 r) as [w1|e] eqn:Hserve; cbn [bind]; [|discriminate].
    apply IH. eapply serve_keeps_history_bounded; eassumption.
Qed.

(** ** The properties of the specification *)

(** C1, as the code has it.  On the empty prompt nothing matches, chatgpt
    alone holds the bonus of 1, the maximum is 1 and not 0, and the reason
    returned is the one of chatgpt's rule: the reason "No specific intent
    detected - routing to general assistant" is not returned. *)
Theorem route_prompt_empty :
  score_agents classification_rules (lower "")
  = Ok [("codex", 0); ("perplexity", 0); ("gemini", 0); ("deepseek", 0);
        ("gpai", 0); ("chatgpt", 1)]
  /\ route_prompt ""
     = Ok {| routing_agent := "chatgpt";
             routing_reason := "General knowledge/conversational query" |}
  /\ route_prompt "" <> Ok no_intent.
Proof. repeat split. discriminate. Qed.

(** C2.  When two different agents both hold the maximum score, the agent
    [route_prompt] returns holds the maximum too, is declared no later than
    either of them, and no agent that holds the maximum is declared before
    it, in the order codex, perplexity, gemini, deepseek, gpai, chatgpt,
    which is the order of the score dict.  The winner is the value of a
    function of the prompt: it is the same at every call. *)
Theorem tie_break_by_declaration_order prompt scores m a b :
  score_agents classification_rules (lower prompt) = Ok scores ->
  py_max (values scores) = Ok m ->
  a <> b ->
  lookup scores a = Some m ->
  lookup scores b = Some m ->
  exists winner,
    route_prompt prompt = Ok winner
    /\ keys scores = declaration_order
    /\ lookup scores (routing_agent winner) = Some m
    /\ (position (routing_agent winner) declaration_order
        <= position a declaration_order)%nat
    /\ (position (routing_agent winner) declaration_order
        <= position b declaration_order)%nat
    /\ forall c, lookup scores c = Some m ->
                 (position (routing_agent winner) declaration_order
                  <= position c declaration_order)%nat.
Proof.
  intros Hscores Hmax _ Hma Hmb.
  destruct (route_prompt_selects prompt)
    as (m' & w & r & Hs & Hm & _ & _ & _ & Hw & Hleast & _ & _ & Hroute).
  assert (Heq : scores = expected_scores classification_rules (lower prompt))
    by congruence.
  subst scores.
  assert (Heq : m' = m) by congruence.
  subst m'.
  eexists. split; [exact Hroute|]. cbn [routing_agent].
  split; [apply declared_keys|]. split; [exact Hw|].
  split; [now apply Hleast|]. split; [now apply Hleast|exact Hleast].
Qed.

Lemma tie_break_by_declaration_order_witness :
  let scores := [("codex", 3); ("perplexity", 3); ("gemini", 0);
                 ("deepseek", 0); ("gpai", 0); ("chatgpt", 1)] in
  exists winner,
    route_prompt "code link" = Ok winner
    /\ keys scores = declaration_order
    /\ lookup scores (routing_agent winner) = Some 3
    /\ (position (routing_agent winner) declaration_order
        <= position "codex" declaration_order)%nat
    /\ (position (routing_agent winner) declaration_order
        <= position "perplexity" declaration_order)%nat
    /\ forall c, lookup scores c = Some 3 ->
                 (position (routing_agent winner) declaration_order
                  <= position c declaration_order)%nat.
Proof.
  intros scores.
  apply (tie_break_by_declaration_order
           "code link" scores 3 "codex" "perplexity").
  - reflexivity.
  - reflexivity.
  - discriminate.
  - reflexivity.
  - reflexivity.
Defined.

(** C3.  The scores computed by the loops of [route_prompt] are, agent by
    agent and in the order of the rule table, 3 times the number of the
    rule's patterns that match somewhere in the lower-cased prompt, plus 5
    times the number of its keywords that occur in it, plus 1 for chatgpt
    only. *)
Theorem scores_are_weighted_counts prompt :
  score_agents classification_rules (lower prompt)
  = Ok (map (fun r =>
               (agent r,
                3 * count (fun pattern => re_search pattern (lower prompt))
                          (patterns r)
                + 5 * count (fun keyword => contains keyword (lower prompt))
                            (keywords r)
                + (if String.eqb (agent r) "chatgpt" then 1 else 0)))
            classification_rules).
Proof.
  exact (score_agents_expected (lower prompt) classification_rules
           agents_distinct chatgpt_declared).
Qed.

(** C4.  On "please fix bug in my script" the keyword "fix bug" is the one
    keyword of codex that occurs, the pattern with "script" is the one
    pattern of codex that matches, codex scores 8, every other agent scores
    less, and codex is returned. *)
Theorem fix_bug_in_script_goes_to_codex :
  let prompt := "please fix bug in my script" in
  filter (fun keyword => contains keyword (lower prompt))
         ["write code"; "fix bug"; "create function"; "program"; "debug";
          "build app"]
  = ["fix bug"]
  /\ map (fun pattern => re_search pattern (lower prompt))
         (flat_map patterns
            (filter (fun r => String.eqb (agent r) "codex")
                    classification_rules))
     = [true; false; false; false]
  /\ score_agents classification_rules (lower prompt)
     = Ok [("codex", 8); ("perplexity", 0); ("gemini", 0); ("deepseek", 0);
           ("gpai", 0); ("chatgpt", 1)]
  /\ route_prompt prompt
     = Ok {| routing_agent := "codex";
             routing_reason := "Programming/code request detected" |}.
Proof. repeat split. Qed.

(** C5.  For every prompt the scoring succeeds, the maximum score is at
    least 1, the test [max_score == 0] is false, and what [route_prompt]
    returns is not the answer of the branch behind that test. *)
Theorem zero_score_branch_unreachable prompt :
  exists scores m answer,
    score_agents classification_rules (lower prompt) = Ok scores
    /\ py_max (values scores) = Ok m
    /\ 1 <= m
    /\ (m =? 0) = false
    /\ route_prompt prompt = Ok answer
    /\ routing_reason answer <> routing_reason no_intent.
Proof.
  destruct (route_prompt_selects prompt)
    as (m & a & r & Hs & Hm & H1 & _ & _ & _ & _ & Hr & _ & Hroute).
  eexists _, m, _. repeat split; try eassumption.
  - apply Z.eqb_neq. lia.
  - cbn [routing_reason]. now apply rule_reason_not_fallback.
Qed.

(** C6.  Lower-casing a prompt beforehand changes nothing: [route_prompt]
    answers a prompt and its lower-cased form alike, "FIX BUG" and
    "fix bug" among them. *)
Theorem route_prompt_ignores_case :
  (forall prompt, route_prompt (lower prompt) = route_prompt prompt)
  /\ route_prompt "FIX BUG" = route_prompt "fix bug".
Proof.
  split; [|reflexivity].
  intros prompt. unfold route_prompt, route_prompt_with.
  now rewrite lower_idempotent.
Qed.

(** C7.  [route_prompt] raises no exception: for every prompt it returns an
    answer whose agent is one of codex, perplexity, gemini, deepseek, gpai
    and chatgpt, with the reason of that agent's rule. *)
Theorem route_prompt_total prompt :
  exists answer r,
    route_prompt prompt = Ok answer
    /\ In (routing_agent answer)
          ["codex"; "perplexity"; "gemini"; "deepseek"; "gpai"; "chatgpt"]
    /\ In r classification_rules
    /\ routing_agent answer = agent r
    /\ routing_reason answer = reason r.
Proof.
  destruct (route_prompt_selects prompt)
    as (m & a & r & _ & _ & _ & _ & _ & _ & _ & Hr & Ha & Hroute).
  eexists _, r. split; [exact Hroute|]. cbn [routing_agent routing_reason].
  repeat split; try assumption; [|now symmetry].
  rewrite <- Ha. change (In (agent r) (map agent classification_rules)).
  now apply in_map.
Qed.

(** C9, the reading that fails.  On "code calculate" codex scores 3 and
    chatgpt 1, yet the winner is gpai with 8, which is declared after
    codex. *)
Lemma rival_or_earlier_wins_fails : ~ rival_or_earlier_wins.
Proof.
  intros H.
  specialize (H "code calculate"
                [("codex", 3); ("perplexity", 0); ("gemini", 0);
                 ("deepseek", 0); ("gpai", 8); ("chatgpt", 1)]
                {| routing_agent := "gpai";
                   routing_reason := "Math/logic/puzzle request detected" |}
                "codex" 3 1 eq_refl eq_refl).
  cbn in H.
  assert (Hle : (4 <= 0)%nat).
  { apply H; [discriminate|reflexivity|reflexivity|lia]. }
  lia.
Qed.

(** C9, amended.  chatgpt is returned exactly when its score, bonus
    included, is strictly greater than the score of every other agent.
    When the score of another agent equals or exceeds chatgpt's, chatgpt is
    not returned: the winner holds the maximum score and is the first in
    declaration order to hold it. *)
Theorem chatgpt_wins_iff_strictly_ahead prompt :
  exists scores m c winner,
    score_agents classification_rules (lower prompt) = Ok scores
    /\ py_max (values scores) = Ok m
    /\ lookup scores "chatgpt" = Some c
    /\ route_prompt prompt = Ok winner
    /\ (routing_agent winner = "chatgpt" <->
        forall rival v,
          rival <> "chatgpt" -> lookup scores rival = Some v -> v < c)
    /\ (forall rival v,
          rival <> "chatgpt" -> lookup scores rival = Some v -> c <= v ->
          routing_agent winner <> "chatgpt"
          /\ lookup scores (routing_agent winner) = Some m
          /\ forall x, lookup scores x = Some m ->
                       (position (routing_agent winner) declaration_order
                        <= position x declaration_order)%nat).
Proof.
  destruct (route_prompt_selects prompt)
    as (m & a & r & Hs & Hm & _ & Hle & _ & Ha & Hleast & _ & _ & Hroute).
  set (scores := expected_scores classification_rules (lower prompt)) in *.
  assert (Hc : exists c, lookup scores "chatgpt" = Some c)
    by (eexists; reflexivity).
  destruct Hc as (c & Hc).
  assert (Hahead : a = "chatgpt" ->
                   forall rival v, rival <> "chatgpt" ->
                                   lookup scores rival = Some v -> v < c).
  { intros -> rival v Hrival Hv.
    assert (c = m) by congruence. subst c.
    pose proof (Hle rival v Hv) as Hvm.
    destruct (Z.eq_dec v m) as [->|Hne]; [|lia].
    pose proof (Hleast rival Hv) as Hpos.
    assert (Hin : In rival declaration_order).
    { rewrite <- (declared_keys (lower prompt)).
      eapply lookup_keys. exact Hv. }
    pose proof (before_chatgpt rival Hin Hrival). lia. }
  exists scores, m, c, {| routing_agent := a; routing_reason := reason r |}.
  cbn [routing_agent].
  split; [exact Hs|]. split; [exact Hm|]. split; [exact Hc|].
  split; [exact Hroute|]. split; [split|].
  - exact Hahead.
  - intros Hall. destruct (string_dec a "chatgpt") as [Heq|Hne]; [exact Heq|].
    pose proof (Hall a m Hne Ha) as Hlt.
    pose proof (Hle "chatgpt" c Hc). lia.
  - intros rival v Hrival Hv Hcv. split; [|split; assumption].
    intros Heq. pose proof (Hahead Heq rival v Hrival Hv). lia.
Qed.

(** C10.  When [/prompt] answers with success, the history of the session
    afterwards is the entry of this request followed by the nine newest
    entries it held before, so it has at most 10 entries and the newest is
    first; the routing recorded is [route_prompt] of the prompt, which the
    history does not enter, and the subscriptions are as before. *)
Theorem history_after_prompt w data pick now routing_ response_ w' :
  handle_prompt w data pick now = Ok (Routed routing_ response_, w') ->
  let entry := make_entry (prompt_of data) routing_ response_ in
  route_prompt (prompt_of data) = Ok routing_
  /\ session w' = Some (entry :: firstn 9 (history_of w))
  /\ hd_error (history_of w') = Some entry
  /\ (length (history_of w') <= 10)%nat
  /\ subscriptions w' = subscriptions w.
Proof.
  unfold handle_prompt.
  destruct (route_prompt (prompt_of data)) as [answer|e]; cbn [bind];
    [|discriminate].
  destruct (negb (get (subscriptions w) (routing_agent answer) false));
    [discriminate|].
  intros Heq.
  assert (answer = routing_) by congruence. subst answer.
  assert (Hw : w' = add_to_history w
                      (make_entry (prompt_of data) routing_ response_))
    by congruence.
  subst w'. unfold add_to_history, history_of at 2 3.
  cbn [session subscriptions]. rewrite newest_first. repeat split.
  change (S (length (firstn 9 (history_of w))) <= 10)%nat.
  pose proof (firstn_le_length 9 (history_of w)). lia.
Qed.

Lemma history_after_prompt_witness :
  let w := initial_world in
  let data := Some "please fix bug in my script" in
  let routing_ := {| routing_agent := "codex";
                     routing_reason := "Programming/code request detected" |} in
  let response_ := call_codex 4 "10:00:00" "please fix bug in my script" in
  let w' := {| subscriptions := subscriptions initial_world;
               session := Some [make_entry "please fix bug in my script"
                                           routing_ response_] |} in
  let entry := make_entry (prompt_of data) routing_ response_ in
  route_prompt (prompt_of data) = Ok routing_
  /\ session w' = Some (entry :: firstn 9 (history_of w))
  /\ hd_error (history_of w') = Some entry
  /\ (length (history_of w') <= 10)%nat
  /\ subscriptions w' = subscriptions w.
Proof.
  intros w data routing_ response_ w'.
  apply (history_after_prompt w data 4%nat "10:00:00" routing_ response_ w').
  reflexivity.
Defined.


(** ** Further properties: subscriptions *)

Section DictUpdate.

Context {V : Type}.
Implicit Types (d : dict V) (k : string) (v : V).

Lemma lookup_setitem_same d k v : lookup (setitem d k v) k = Some v.
Proof.
  induction d as [|[k' v'] d IH]; cbn.
  - now rewrite String.eqb_refl.
  - destruct (String.eqb_spec k' k) as [->|Hne]; cbn.
    + now rewrite String.eqb_refl.
    + apply String.eqb_neq in Hne. now rewrite Hne.
Qed.

Lemma lookup_setitem_other d k k' v :
  k <> k' -> lookup (setitem d k v) k' = lookup d k'.
Proof.
  intros Hkk'. induction d as [|[k0 v0] d IH]; cbn.
  - apply String.eqb_neq in Hkk'. now rewrite Hkk'.
  - destruct (String.eqb_spec k0 k) as [->|Hne]; cbn.
    + apply String.eqb_neq in Hkk'. now rewrite Hkk'.
    + now rewrite IH.
Qed.

Lemma keys_setitem_present d k v v' :
  lookup d k = Some v' -> keys (setitem d k v) = keys d.
Proof.
  induction d as [|[k0 v0] d IH]; cbn; [discriminate|].
  destruct (String.eqb_spec k0 k) as [->|Hne]; [reflexivity|].
  intros H. cbn. f_equal. now apply IH.
Qed.

Lemma lookup_None d k : lookup d k = None <-> ~ In k (keys d).
Proof.
  induction d as [|[k0 v0] d IH]; cbn; [tauto|].
  destruct (String.eqb_spec k0 k) as [->|Hne].
  - split; [discriminate|tauto].
  - rewrite IH. tauto.
Qed.

End DictUpdate.

(** X1.  A status posted for an agent that [subscriptions] holds is what
    [/subscription/status] reports for it afterwards; the other agents keep
    their status, no key is added, removed or moved, and the history is not
    touched. *)
Theorem update_subscription_round_trip w a status old :
  lookup (subscriptions w) a = Some old ->
  let w' := snd (update_subscription w (Some a) status) in
  fst (update_subscription w (Some a) status) = true
  /\ lookup (get_subscriptions w') a = Some status
  /\ (forall k, k <> a ->
                lookup (get_subscriptions w') k
                = lookup (get_subscriptions w) k)
  /\ keys (get_subscriptions w') = keys (get_subscriptions w)
  /\ session w' = session w.
Proof.
  intros Hold. unfold update_subscription, get_subscriptions.
  rewrite Hold. cbn [fst snd subscriptions session].
  split; [reflexivity|]. split; [apply lookup_setitem_same|].
  split; [|split; [eapply keys_setitem_present; eassumption|reflexivity]].
  intros k Hk. apply lookup_setitem_other. congruence.
Qed.

Lemma update_subscription_round_trip_witness :
  let w' := snd (update_subscription initial_world (Some "gemini") false) in
  fst (update_subscription initial_world (Some "gemini") false) = true
  /\ lookup (get_subscriptions w') "gemini" = Some false
  /\ (forall k, k <> "gemini" ->
                lookup (get_subscriptions w') k
                = lookup (get_subscriptions initial_world) k)
  /\ keys (get_subscriptions w') = keys (get_subscriptions initial_world)
  /\ session w' = session initial_world.
Proof.
  apply (update_subscription_round_trip initial_world "gemini" false true).
  reflexivity.
Defined.

(** X2.  [/subscription] answers with success exactly when the posted agent
    is a key of [subscriptions]; a missing or unknown agent leaves the whole
    state as it was, so no agent can be added. *)
Theorem update_subscription_known_agents_only w agent_ status :
  (fst (update_subscription w agent_ status) = true
   <-> exists a, agent_ = Some a /\ In a (keys (subscriptions w)))
  /\ (fst (update_subscription w agent_ status) = false ->
      snd (update_subscription w agent_ status) = w).
Proof.
  unfold update_subscription. destruct agent_ as [a|]; cbn [fst snd].
  - destruct (lookup (subscriptions w) a) as [old|] eqn:Hlook; cbn [fst snd].
    + split; [|discriminate]. split; [|reflexivity].
      intros _. exists a. split; [reflexivity|].
      eapply lookup_keys. exact Hlook.
    + split; [|reflexivity]. split; [discriminate|].
      intros (a' & [= <-] & Hin). apply lookup_None in Hlook. contradiction.
  - split; [|reflexivity]. split; [discriminate|].
    now intros (a' & [=] & _).
Qed.

(** X3.  Once the agent that [route_prompt] picks for a prompt has been
    unsubscribed, [/prompt] answers that prompt with the fall-back: the
    error names the agent, the reply is ChatGPT's, and neither the
    subscriptions nor the history change with the request. *)
Theorem unsubscribed_agent_falls_back w prompt pick now :
  exists answer,
    route_prompt prompt = Ok answer
    /\ let a := routing_agent answer in
       let w1 := snd (update_subscription w (Some a) false) in
       handle_prompt w1 (Some prompt) pick now
       = Ok (NotSubscribed (String.append (capitalize a) " is not subscribed")
                           a (call_chatgpt pick now prompt), w1)
       /\ session w1 = session w.
Proof.
  destruct (route_prompt_selects prompt)
    as (m & a & r & _ & _ & _ & _ & _ & _ & _ & _ & _ & Hroute).
  eexists. split; [exact Hroute|]. cbn [routing_agent]. cbv zeta.
  assert (Hoff : get (subscriptions (snd (update_subscription w (Some a) false)))
                     a false = false
                 /\ session (snd (update_subscription w (Some a) false))
                    = session w).
  { unfold update_subscription, get.
    destruct (lookup (subscriptions w) a) as [old|] eqn:Hlook;
      cbn [snd subscriptions session].
    - now rewrite lookup_setitem_same.
    - now rewrite Hlook. }
  destruct Hoff as [Hoff Hsession]. split; [|exact Hsession].
  unfold handle_prompt. cbn [prompt_of]. rewrite Hroute.
  cbn [bind routing_agent]. rewrite Hoff. reflexivity.
Qed.

(** X4.  Once the agent that [route_prompt] picks for a prompt has been
    subscribed, [/prompt] routes that prompt: the answer carries the routing
    of [route_prompt] and the reply of that agent's function, and the entry
    of the request is put in front of the history. *)
Theorem subscribed_agent_is_routed w prompt pick now answer old :
  route_prompt prompt = Ok answer ->
  lookup (subscriptions w) (routing_agent answer) = Some old ->
  let a := routing_agent answer in
  let w1 := snd (update_subscription w (Some a) true) in
  let reply_ := get agent_functions a call_chatgpt pick now prompt in
  handle_prompt w1 (Some prompt) pick now
  = Ok (Routed answer reply_,
        add_to_history w1 (make_entry prompt answer reply_))
  /\ history_of w1 = history_of w.
Proof.
  intros Hroute Hold. cbv zeta.
  unfold update_subscription. rewrite Hold. cbn [snd].
  split; [|reflexivity].
  unfold handle_prompt. cbn [prompt_of]. rewrite Hroute.
  cbn [bind subscriptions]. unfold get at 1.
  rewrite lookup_setitem_same. reflexivity.
Qed.

Lemma subscribed_agent_is_routed_witness :
  let answer := {| routing_agent := "gpai";
                   routing_reason := "Math/logic/puzzle request detected" |} in
  let w1 := snd (update_subscription initial_world (Some "gpai") true) in
  let reply_ := get agent_functions "gpai" call_chatgpt 1%nat "09:30:00"
                    "solve 12 + 7 * 3" in
  handle_prompt w1 (Some "solve 12 + 7 * 3") 1%nat "09:30:00"
  = Ok (Routed answer reply_,
        add_to_history w1 (make_entry "solve 12 + 7 * 3" answer reply_))
  /\ history_of w1 = history_of initial_world.
Proof.
  intros answer.
  apply (subscribed_agent_is_routed initial_world "solve 12 + 7 * 3" 1%nat
           "09:30:00" answer true).
  - reflexivity.
  - reflexivity.
Defined.

(** ** Further properties: the state under sequences of requests *)

Lemma update_subscription_keys w agent_ status :
  keys (subscriptions (snd (update_subscription w agent_ status)))
  = keys (subscriptions w).
Proof.
  unfold update_subscription. destruct agent_ as [a|]; [|reflexivity].
  destruct (lookup (subscriptions w) a) as [old|] eqn:Hlook; [|reflexivity].
  cbn [snd subscriptions]. eapply keys_setitem_present. exact Hlook.
Qed.

Lemma handle_prompt_returns w data pick now :
  exists out w',
    handle_prompt w data pick now = Ok (out, w')
    /\ subscriptions w' = subscriptions w.
Proof.
  destruct (route_prompt_selects (prompt_of data))
    as (m & a & r & _ & _ & _ & _ & _ & _ & _ & _ & _ & Hroute).
  unfold handle_prompt. rewrite Hroute. cbn [bind routing_agent].
  destruct (get (subscriptions w) a false); cbn [negb];
    eexists _, _; split; reflexivity.
Qed.

Lemma serve_returns w r :
  exists w',
    serve w r = Ok w' /\ keys (subscriptions w') = keys (subscriptions w).
Proof.
  destruct r as [data pick now|agent_ status|data| |]; cbn [serve].
  - destruct (handle_prompt_returns w data pick now) as (out & w' & -> & Hs).
    cbn [bind snd]. exists w'. now rewrite Hs.
  - eexists. split; [reflexivity|]. apply update_subscription_keys.
  - destruct (route_prompt_selects (prompt_of data))
      as (m & a & r & _ & _ & _ & _ & _ & _ & _ & _ & _ & Hroute).
    unfold router_test. rewrite Hroute. cbn [bind snd].
    eexists. split; reflexivity.
  - eexists. split; reflexivity.
  - eexists. split; reflexivity.
Qed.

Lemma serve_all_from w0 rs :
  (length (history_of w0) <= 10)%nat ->
  exists w,
    serve_all w0 rs = Ok w
    /\ keys (subscriptions w) = keys (subscriptions w0)
    /\ (length (history_of w) <= 10)%nat.
Proof.
  unfold serve_all. revert w0.
  induction rs as [|r rs IH]; intros w0 Hw0; cbn [for_each].
  - exists w0. repeat split. exact Hw0.
  - destruct (serve_returns w0 r) as (w1 & Hserve & Hkeys).
    rewrite Hserve. cbn [bind].
    destruct (IH w1) as (w & Hall & Hk & Hlen).
    { eapply serve_keeps_history_bounded; eassumption. }
    exists w. split; [exact Hall|]. split; [congruence|exact Hlen].
Qed.

(** X5.  Whatever requests are sent after start-up ([/prompt],
    [/subscription], [/router-test], [/history], [/history/clear], with any
    string or no prompt, any agent name), each is served without an
    exception, the keys of [subscriptions] stay the six agents in their
    initial order, and the history never holds more than 10 entries. *)
Theorem server_invariants rs :
  exists w,
    serve_all initial_world rs = Ok w
    /\ keys (subscriptions w)
       = ["chatgpt"; "gemini"; "deepseek"; "perplexity"; "gpai"; "codex"]
    /\ (length (history_of w) <= 10)%nat.
Proof.
  destruct (serve_all_from initial_world rs) as (w & Hall & Hkeys & Hlen).
  { cbn. lia. }
  exists w. split; [exact Hall|]. split; [exact Hkeys|exact Hlen].
Qed.

Lemma subscribed_prompt_is_recorded w data pick now :
  all_subscribed w = true ->
  exists entry,
    serve w (PostPrompt data pick now) = Ok (add_to_history w entry).
Proof.
  intros Hall.
  destruct (route_prompt_selects (prompt_of data))
    as (m & a & r & _ & _ & _ & _ & _ & _ & _ & Hr & Ha & Hroute).
  unfold all_subscribed in Hall. rewrite forallb_forall in Hall.
  specialize (Hall r Hr). rewrite Ha in Hall.
  cbn [serve]. unfold handle_prompt. rewrite Hroute.
  cbn [bind routing_agent]. rewrite Hall. cbn [negb bind snd].
  eexists. reflexivity.
Qed.

Lemma length_add_to_history w entry :
  length (history_of (add_to_history w entry))
  = Nat.min 10 (S (length (history_of w))).
Proof.
  unfold add_to_history. unfold history_of at 1. cbn [session].
  now rewrite length_firstn.
Qed.

(** X6.  While every agent is subscribed, each [/prompt] request is
    recorded: after a run of them the history holds as many entries as it
    held before plus one for each request, up to the cap of 10. *)
Theorem history_grows_to_the_cap w posts :
  all_subscribed w = true ->
  (length (history_of w) <= 10)%nat ->
  exists w',
    serve_all w (prompt_requests posts) = Ok w'
    /\ length (history_of w')
       = Nat.min 10 (length posts + length (history_of w))
    /\ subscriptions w' = subscriptions w.
Proof.
  unfold serve_all. revert w.
  induction posts as [|post posts IH]; intros w Hall Hlen;
    cbn [prompt_requests map for_each length].
  - exists w. repeat split. cbn [Nat.add]. lia.
  - destruct (subscribed_prompt_is_recorded
                w (fst (fst post)) (snd (fst post)) (snd post) Hall)
      as (entry & ->).
    cbn [bind].
    destruct (IH (add_to_history w entry)) as (w' & Hrun & Hcount & Hsubs).
    + exact Hall.
    + rewrite length_add_to_history. lia.
    + exists w'. split; [exact Hrun|]. split; [|exact Hsubs].
      rewrite Hcount, length_add_to_history. lia.
Qed.

Lemma history_grows_to_the_cap_witness :
  exists w',
    serve_all initial_world
              (prompt_requests (repeat (Some "solve 12 + 7 * 3", 2%nat,
                                        "09:30:00") 12))
    = Ok w'
    /\ length (history_of w')
       = Nat.min 10 (length (repeat (Some "solve 12 + 7 * 3", 2%nat,
                                     "09:30:00") 12)
                     + length (history_of initial_world))
    /\ subscriptions w' = subscriptions initial_world.
Proof.
  apply (history_grows_to_the_cap initial_world).
  - reflexivity.
  - cbn. lia.
Defined.

(** ** Further properties: history entries and replies *)

Lemma length_take n s :
  String.length (take n s) = Nat.min n (String.length s).
Proof.
  revert s. induction n as [|n IH]; intros [|c s]; cbn; try reflexivity.
  now rewrite IH.
Qed.

Lemma take_all n s : (String.length s <= n)%nat -> take n s = s.
Proof.
  revert s. induction n as [|n IH]; intros [|c s]; cbn; try reflexivity.
  - lia.
  - intros Hlen. f_equal. apply IH. lia.
Qed.

Lemma take_take n m s : (n <= m)%nat -> take n (take m s) = take n s.
Proof.
  revert m s. induction n as [|n IH]; intros [|m] [|c s] Hnm; cbn;
    try reflexivity; try lia.
  f_equal. apply IH. lia.
Qed.

Lemma length_append s t :
  String.length (String.append s t) = (String.length s + String.length t)%nat.
Proof. induction s as [|c s IH]; cbn; [reflexivity|]. now rewrite IH. Qed.

Lemma append_empty s : String.append s "" = s.
Proof. induction s as [|c s IH]; cbn; [reflexivity|]. now rewrite IH. Qed.

(** X7.  The prompt kept in a history entry is the prompt itself when it
    has at most 60 characters, and otherwise its first 60 characters
    followed by three dots: it never has more than 63 characters. *)
Theorem entry_prompt_is_cut prompt_text routing_ response_ :
  let shown := entry_prompt (make_entry prompt_text routing_ response_) in
  (String.length shown <= 63)%nat
  /\ ((String.length prompt_text <= 60)%nat -> shown = prompt_text)
  /\ ((60 < String.length prompt_text)%nat ->
      shown = String.append (take 60 prompt_text) "..."
      /\ String.length shown = 63%nat).
Proof.
  cbv zeta. unfold make_entry. cbn [entry_prompt].
  destruct (Nat.ltb_spec 60 (String.length prompt_text)) as [Hlong|Hshort].
  - rewrite length_append, length_take. cbn [String.length].
    split; [lia|]. split; [lia|]. intros _. split; [reflexivity|lia].
  - rewrite append_empty, take_all by exact Hshort.
    split; [lia|]. split; [reflexivity|]. lia.
Qed.

Lemma take_prefix n p q :
  (n <= 50)%nat -> take 50 p = take 50 q -> take n p = take n q.
Proof.
  intros Hn Hpq. rewrite <- (take_take n 50 p), <- (take_take n 50 q) by lia.
  now rewrite Hpq.
Qed.

(** X8.  The reply of a mock agent, the one [/prompt] calls for any agent
    name, shows no more of the prompt than its first 50 characters: two
    prompts that agree on these get the same reply for the same random draw
    and clock. *)
Theorem reply_reads_first_50_characters agent_name pick now p q :
  take 50 p = take 50 q ->
  get agent_functions agent_name call_chatgpt pick now p
  = get agent_functions agent_name call_chatgpt pick now q.
Proof.
  intros Hpq.
  pose proof (take_prefix 50 p q ltac:(lia) Hpq) as H50.
  pose proof (take_prefix 45 p q ltac:(lia) Hpq) as H45.
  pose proof (take_prefix 40 p q ltac:(lia) Hpq) as H40.
  pose proof (take_prefix 35 p q ltac:(lia) Hpq) as H35.
  pose proof (take_prefix 30 p q ltac:(lia) Hpq) as H30.
  unfold get, agent_functions. cbn [lookup].
  repeat match goal with
         | |- context [String.eqb ?a agent_name] =>
             destruct (String.eqb a agent_name)
         end;
    unfold call_chatgpt, call_gemini, call_deepseek, call_perplexity,
      call_gpai, call_codex;
    rewrite ?H50, ?H45, ?H40, ?H35, ?H30; reflexivity.
Qed.

Lemma reply_reads_first_50_characters_witness :
  get agent_functions "deepseek" call_chatgpt 0%nat "12:00:00"
      "explain in detail how the tides follow the moon and the sun"
  = get agent_functions "deepseek" call_chatgpt 0%nat "12:00:00"
        "explain in detail how the tides follow the moon and why".
Proof.
  apply reply_reads_first_50_characters.
  reflexivity.
Defined.

(** X9.  In a routed answer of [/prompt] the reply comes from the agent the
    classifier picked: the name the reply carries (Codex, Perplexity,
    Gemini, DeepSeek, GPAI, ChatGPT) is, lower-cased, the agent of the
    routing, its time stamp is the clock of the request, and the history
    entry carries both. *)
Theorem reply_comes_from_routed_agent w data pick now routing_ response_ w' :
  handle_prompt w data pick now = Ok (Routed routing_ response_, w') ->
  lower (reply_agent response_) = routing_agent routing_
  /\ timestamp response_ = now
  /\ exists entry,
       hd_error (history_of w') = Some entry
       /\ lower (entry_agent entry) = routing_agent routing_
       /\ entry_timestamp entry = now
       /\ entry_routing_reason entry = routing_reason routing_.
Proof.
  intros Hrun.
  destruct (route_prompt_selects (prompt_of data))
    as (m & a & r & _ & _ & _ & _ & _ & _ & _ & Hr & Ha & Hroute).
  unfold handle_prompt in Hrun. rewrite Hroute in Hrun.
  cbn [bind routing_agent] in Hrun.
  destruct (negb (get (subscriptions w) a false)); [discriminate|].
  set (reply_ := get agent_functions a call_chatgpt pick now (prompt_of data))
    in Hrun.
  assert (Hrouting : routing_ = {| routing_agent := a;
                                   routing_reason := reason r |})
    by congruence.
  assert (Hreply : response_ = reply_) by congruence.
  assert (Hw' : w' = add_to_history w
                       (make_entry (prompt_of data)
                                   {| routing_agent := a;
                                      routing_reason := reason r |} reply_))
    by congruence.
  subst routing_ response_ w'. cbn [routing_agent routing_reason].
  assert (Hfrom : lower (reply_agent reply_) = a /\ timestamp reply_ = now).
  { subst reply_ a. cbn in Hr.
    destruct Hr as [<-|[<-|[<-|[<-|[<-|[<-|[]]]]]]]; split; reflexivity. }
  destruct Hfrom as [Hname Hclock].
  split; [exact Hname|]. split; [exact Hclock|].
  eexists. split; [reflexivity|]. cbn [make_entry entry_agent entry_timestamp
                                      entry_routing_reason routing_reason].
  repeat split; assumption.
Qed.

Lemma reply_comes_from_routed_agent_witness :
  let routing_ := {| routing_agent := "gemini";
                     routing_reason :=
                       "Factual knowledge/lookup request detected" |} in
  let response_ := call_gemini 5 "08:15:00" "What is the capital of France" in
  let w' := add_to_history initial_world
              (make_entry "What is the capital of France" routing_
                          response_) in
  lower (reply_agent response_) = routing_agent routing_
  /\ timestamp response_ = "08:15:00"
  /\ exists entry,
       hd_error (history_of w') = Some entry
       /\ lower (entry_agent entry) = routing_agent routing_
       /\ entry_timestamp entry = "08:15:00"
       /\ entry_routing_reason entry = routing_reason routing_.
Proof.
  intros routing_ response_ w'.
  apply (reply_comes_from_routed_agent
           initial_world (Some "What is the capital of France") 5%nat
           "08:15:00" routing_ response_ w').
  reflexivity.
Defined.

(** ** Further properties: patterns and scores *)

Lemma contains_here w s rest : match_word w s = Some rest -> contains w s = true.
Proof. intros H. destruct s; cbn [contains]; now rewrite H. Qed.

Lemma contains_later w c s : contains w s = true -> contains w (String c s) = true.
Proof.
  intros H. cbn [contains]. destruct (match_word w (String c s)); auto.
Qed.

Lemma match_word_chars w s rest :
  match_word w s = Some rest ->
  list_ascii_of_string s
  = list_ascii_of_string w ++ list_ascii_of_string rest.
Proof.
  revert s. induction w as [|a w IH]; intros s; cbn.
  - now intros [= ->].
  - destruct s as [|b s]; [discriminate|].
    destruct (Ascii.eqb_spec a b) as [->|_]; [|discriminate].
    intros H. cbn. f_equal. now apply IH.
Qed.

Lemma contains_chars w s c :
  contains w s = true ->
  In c (list_ascii_of_string w) -> In c (list_ascii_of_string s).
Proof.
  intros Hcontains Hc. induction s as [|b s IH].
  - cbn in Hcontains. destruct (match_word w "") as [rest|] eqn:Hw;
      [|discriminate].
    apply match_word_chars in Hw. rewrite Hw. apply in_or_app. now left.
  - cbn [contains] in Hcontains.
    destruct (match_word w (String b s)) as [rest|] eqn:Hw.
    + apply match_word_chars in Hw. rewrite Hw. apply in_or_app. now left.
    + cbn. right. now apply IH.
Qed.

Lemma lower_chars s :
  list_ascii_of_string (lower s) = map Char.lower (list_ascii_of_string s).
Proof. induction s as [|c s IH]; cbn; [reflexivity|]. now rewrite IH. Qed.

Lemma lower_has_no_capital_i c : Char.lower c <> "I"%char.
Proof.
  destruct c as [b0 b1 b2 b3 b4 b5 b6 b7].
  destruct b0, b1, b2, b3, b4, b5, b6, b7; discriminate.
Qed.

Lemma match_here_words ws prev s :
  match_here (words ws) prev s
  = at_boundary prev s
    && existsb (fun w =>
                  match match_word w s with
                  | Some rest => at_boundary (last_char w prev) rest && true
                  | None => false
                  end) ws.
Proof. reflexivity. Qed.

(** An alternative that does not occur in the subject can be dropped. *)
Lemma search_without_absent_word w0 ws prev s :
  contains w0 s = false ->
  search_from (words (w0 :: ws)) prev s = search_from (words ws) prev s.
Proof.
  revert prev. induction s as [|c s IH]; intros prev Habsent;
    cbn [search_from]; rewrite !match_here_words; cbn [existsb].
  - destruct (match_word w0 "") as [rest|] eqn:Hw; [|reflexivity].
    apply contains_here in Hw. congruence.
  - destruct (match_word w0 (String c s)) as [rest|] eqn:Hw.
    + apply contains_here in Hw. congruence.
    + cbn [orb]. rewrite IH; [reflexivity|].
      destruct (contains w0 s) eqn:Hs; [|reflexivity].
      apply (contains_later w0 c) in Hs. congruence.
Qed.

Lemma search_no_word prev s : search_from (words []) prev s = false.
Proof.
  revert prev. induction s as [|c s IH]; intros prev; cbn [search_from];
    rewrite match_here_words; cbn [existsb]; rewrite Bool.andb_false_r.
  - reflexivity.
  - apply IH.
Qed.

(** X10.  The alternative "where can I" of perplexity's second pattern has
    a capital I and the pattern is searched, case-sensitively, in the
    lower-cased prompt: the alternative matches no prompt, and the pattern
    finds exactly what it finds without it. *)
Theorem where_can_I_never_matches prompt :
  contains "where can I" (lower prompt) = false
  /\ re_search (words ["where can I"]) (lower prompt) = false
  /\ re_search (words ["where can I"; "find me"; "search for";
                       "give me sources"; "list of resources"])
               (lower prompt)
     = re_search (words ["find me"; "search for"; "give me sources";
                         "list of resources"])
                 (lower prompt).
Proof.
  assert (Habsent : contains "where can I" (lower prompt) = false).
  { destruct (contains "where can I" (lower prompt)) eqn:Hc; [|reflexivity].
    exfalso.
    assert (Hin : In "I"%char (list_ascii_of_string (lower prompt))).
    { apply (contains_chars "where can I" _ _ Hc). cbn. tauto. }
    rewrite lower_chars in Hin. apply in_map_iff in Hin.
    destruct Hin as (c & Hc' & _). exact (lower_has_no_capital_i c Hc'). }
  split; [exact Habsent|]. unfold re_search. split.
  - rewrite search_without_absent_word by exact Habsent.
    apply search_no_word.
  - now apply search_without_absent_word.
Qed.

Lemma math_class_lower c : math_class (Char.lower c) = math_class c.
Proof.
  destruct c as [b0 b1 b2 b3 b4 b5 b6 b7].
  destruct b0, b1, b2, b3, b4, b5, b6, b7; reflexivity.
Qed.

Lemma search_class class prev s :
  search_from [OneOrMore class] prev s
  = existsb class (list_ascii_of_string s).
Proof.
  revert prev. induction s as [|c s IH]; intros prev; cbn [search_from].
  - reflexivity.
  - rewrite IH. cbn. now destruct (class c).
Qed.

Lemma count_hit {A : Type} (test : A -> bool) x xs :
  In x xs -> test x = true -> 1 <= count test xs.
Proof.
  induction xs as [|y xs IH]; intros Hin Hx; [destruct Hin|].
  rewrite count_cons. pose proof (count_nonneg test xs).
  destruct Hin as [->|Hin].
  - rewrite Hx. lia.
  - specialize (IH Hin Hx). destruct (test y); lia.
Qed.

Lemma count_at_most {A : Type} (test : A -> bool) xs :
  count test xs <= Z.of_nat (length xs).
Proof.
  induction xs as [|y xs IH]; [unfold count; cbn; lia|].
  rewrite count_cons. cbn [length]. destruct (test y); lia.
Qed.

Lemma pattern_hit prompt_lower r pattern :
  In pattern (patterns r) -> re_search pattern prompt_lower = true ->
  3 <= expected_score prompt_lower r.
Proof.
  intros Hin Hhit. unfold expected_score.
  pose proof (count_hit (fun pattern => re_search pattern prompt_lower)
                        pattern (patterns r) Hin Hhit).
  pose proof (count_nonneg (fun keyword => contains keyword prompt_lower)
                           (keywords r)).
  destruct (String.eqb (agent r) "chatgpt"); lia.
Qed.

Lemma keyword_hit prompt_lower r keyword :
  In keyword (keywords r) -> contains keyword prompt_lower = true ->
  5 <= expected_score prompt_lower r.
Proof.
  intros Hin Hhit. unfold expected_score.
  pose proof (count_hit (fun keyword => contains keyword prompt_lower)
                        keyword (keywords r) Hin Hhit).
  pose proof (count_nonneg (fun pattern => re_search pattern prompt_lower)
                           (patterns r)).
  destruct (String.eqb (agent r) "chatgpt"); lia.
Qed.

Lemma lookup_expected rules prompt_lower r :
  NoDup (map agent rules) -> In r rules ->
  lookup (expected_scores rules prompt_lower) (agent r)
  = Some (expected_score prompt_lower r).
Proof.
  induction rules as [|r0 rules IH]; intros Hnd Hin; [destruct Hin|].
  cbn [map] in Hnd. apply NoDup_cons_iff in Hnd. destruct Hnd as [Hr0 Hnd].
  cbn [expected_scores map lookup].
  destruct Hin as [->|Hin].
  - now rewrite String.eqb_refl.
  - destruct (String.eqb_spec (agent r0) (agent r)) as [Heq|_].
    + exfalso. apply Hr0. rewrite Heq. now apply in_map.
    + now apply IH.
Qed.

Lemma lookup_expected_inv rules prompt_lower k v :
  lookup (expected_scores rules prompt_lower) k = Some v ->
  exists r, In r rules /\ agent r = k /\ v = expected_score prompt_lower r.
Proof.
  intros H. apply lookup_In in H. apply in_map_iff in H.
  destruct H as (r & [= <- <-] & Hr). now exists r.
Qed.

Lemma chatgpt_score_at_most_4 prompt_lower r :
  In r classification_rules -> agent r = "chatgpt" ->
  expected_score prompt_lower r <= 4.
Proof.
  intros Hin Ha. cbn in Hin.
  destruct Hin as [<-|[<-|[<-|[<-|[<-|[<-|[]]]]]]]; try discriminate Ha.
  unfold expected_score. cbn [patterns keywords agent].
  pose proof (count_at_most
                (fun pattern => re_search pattern prompt_lower)
                [words ["opinion"; "thoughts"; "perspective"; "general";
                        "anyway"; "basically"; "overall"]]).
  pose proof (count_at_most
                (fun keyword => contains keyword prompt_lower) []).
  cbn [length] in *. rewrite String.eqb_refl. lia.
Qed.

(** X11.  The first pattern of gpai is found exactly in the prompts that
    hold a digit or one of the characters + - * / = % ( ), whatever else
    they say; such a prompt scores at least 3 for gpai. *)
Theorem math_characters_score_for_gpai prompt :
  re_search [OneOrMore math_class] (lower prompt)
  = existsb math_class (list_ascii_of_string prompt)
  /\ (existsb math_class (list_ascii_of_string prompt) = true ->
      exists scores v,
        score_agents classification_rules (lower prompt) = Ok scores
        /\ lookup scores "gpai" = Some v
        /\ 3 <= v).
Proof.
  assert (Hsearch : re_search [OneOrMore math_class] (lower prompt)
                    = existsb math_class (list_ascii_of_string prompt)).
  { unfold re_search. rewrite search_class, lower_chars.
    induction (list_ascii_of_string prompt) as [|c l IH]; cbn [map existsb];
      [reflexivity|].
    now rewrite math_class_lower, IH. }
  split; [exact Hsearch|]. intros Hmath. rewrite <- Hsearch in Hmath.
  assert (Hrule : exists r, In r classification_rules /\ agent r = "gpai"
                            /\ In [OneOrMore math_class] (patterns r)).
  { eexists. split; [do 4 right; left; reflexivity|].
    split; [reflexivity|left; reflexivity]. }
  destruct Hrule as (r & Hr & Ha & Hpattern).
  exists (expected_scores classification_rules (lower prompt)),
         (expected_score (lower prompt) r).
  split; [apply score_agents_expected;
          [exact agents_distinct|exact chatgpt_declared]|].
  split; [|eapply pattern_hit; eassumption].
  rewrite <- Ha. apply lookup_expected; [exact agents_distinct|exact Hr].
Qed.

(** X12.  A prompt on which no agent but chatgpt scores is routed to
    chatgpt with the reason of chatgpt's rule, "General
    knowledge/conversational query". *)
Theorem unmatched_prompt_goes_to_chatgpt prompt scores :
  score_agents classification_rules (lower prompt) = Ok scores ->
  only_chatgpt_scores scores = true ->
  route_prompt prompt
  = Ok {| routing_agent := "chatgpt";
          routing_reason := "General knowledge/conversational query" |}.
Proof.
  intros Hscores Honly.
  destruct (route_prompt_selects prompt)
    as (m & a & r & Hs & _ & H1 & _ & _ & Ha & _ & Hr & Hra & Hroute).
  assert (Heq : scores = expected_scores classification_rules (lower prompt))
    by congruence.
  subst scores. rewrite Hroute.
  unfold only_chatgpt_scores in Honly. rewrite forallb_forall in Honly.
  specialize (Honly (a, m) (lookup_In _ _ _ Ha)). cbn [fst snd] in Honly.
  apply Bool.orb_true_iff in Honly. destruct Honly as [Hchat|Hzero].
  - apply String.eqb_eq in Hchat. rewrite Hchat in Hra |- *. cbn in Hr.
    destruct Hr as [<-|[<-|[<-|[<-|[<-|[<-|[]]]]]]]; try discriminate Hra.
    reflexivity.
  - apply Z.eqb_eq in Hzero. lia.
Qed.

Lemma unmatched_prompt_goes_to_chatgpt_witness :
  route_prompt "hello there, how are you today"
  = Ok {| routing_agent := "chatgpt";
          routing_reason := "General knowledge/conversational query" |}.
Proof.
  apply (unmatched_prompt_goes_to_chatgpt
           "hello there, how are you today"
           [("codex", 0); ("perplexity", 0); ("gemini", 0); ("deepseek", 0);
            ("gpai", 0); ("chatgpt", 1)]).
  - reflexivity.
  - reflexivity.
Defined.

(** X13.  A prompt in which a keyword of some rule occurs is never routed
    to chatgpt: the keyword gives its agent at least 5, and chatgpt, with
    one pattern, no keyword and the bonus, has at most 4. *)
Theorem keyword_hit_beats_chatgpt prompt r keyword :
  In r classification_rules ->
  In keyword (keywords r) ->
  contains keyword (lower prompt) = true ->
  exists answer scores m,
    route_prompt prompt = Ok answer
    /\ routing_agent answer <> "chatgpt"
    /\ score_agents classification_rules (lower prompt) = Ok scores
    /\ lookup scores (routing_agent answer) = Some m
    /\ 5 <= m.
Proof.
  intros Hr Hkeyword Hhit.
  destruct (route_prompt_selects prompt)
    as (m & a & r' & Hs & _ & _ & Hle & _ & Ha & _ & Hr' & Hra & Hroute).
  pose proof (keyword_hit (lower prompt) r keyword Hkeyword Hhit) as H5.
  pose proof (lookup_expected classification_rules (lower prompt) r
                              agents_distinct Hr) as Hlook.
  pose proof (Hle _ _ Hlook) as Hmax.
  eexists _, _, m. split; [exact Hroute|]. cbn [routing_agent].
  split; [|split; [exact Hs|split; [exact Ha|lia]]].
  intros Hchat.
  pose proof (lookup_expected classification_rules (lower prompt) r'
                              agents_distinct Hr') as Hlook'.
  rewrite Hra in Hlook'.
  assert (Hm : m = expected_score (lower prompt) r') by congruence.
  pose proof (chatgpt_score_at_most_4 (lower prompt) r' Hr'
                                      (eq_trans Hra Hchat)).
  lia.
Qed.

Lemma keyword_hit_beats_chatgpt_witness :
  exists answer scores m,
    route_prompt "Define opinion, basically" = Ok answer
    /\ routing_agent answer <> "chatgpt"
    /\ score_agents classification_rules (lower "Define opinion, basically")
       = Ok scores
    /\ lookup scores (routing_agent answer) = Some m
    /\ 5 <= m.
Proof.
  apply (keyword_hit_beats_chatgpt
           "Define opinion, basically"
           (nth 2 classification_rules
                {| agent := ""; patterns := []; keywords := [];
                   reason := "" |})
           "define").
  - cbn. tauto.
  - cbn. tauto.
  - reflexivity.
Defined.

(** X14.  Every score is between 0 and 42, the most the four patterns and
    six keywords of codex can add up to, and the score of chatgpt is between
    1 and 4. *)
Theorem scores_are_bounded prompt :
  exists scores,
    score_agents classification_rules (lower prompt) = Ok scores
    /\ forall k v,
         lookup scores k = Some v ->
         0 <= v <= 42 /\ (k = "chatgpt" -> 1 <= v <= 4).
Proof.
  exists (expected_scores classification_rules (lower prompt)).
  split; [apply score_agents_expected;
          [exact agents_distinct|exact chatgpt_declared]|].
  intros k v Hlook.
  apply lookup_expected_inv in Hlook. destruct Hlook as (r & Hr & Ha & ->).
  split.
  - split; [apply expected_score_nonneg|].
    unfold expected_score.
    pose proof (count_at_most
                  (fun pattern => re_search pattern (lower prompt))
                  (patterns r)) as Hp.
    pose proof (count_at_most
                  (fun keyword => contains keyword (lower prompt))
                  (keywords r)) as Hk.
    cbn in Hr.
    destruct Hr as [<-|[<-|[<-|[<-|[<-|[<-|[]]]]]]];
      cbn [patterns keywords agent length] in Hp, Hk |- *;
      match goal with
      | |- context [String.eqb ?a ?b] => destruct (String.eqb a b) eqn:Hb
      end; try discriminate Hb; lia.
  - intros Hk. subst k. split.
    + now apply expected_score_chatgpt.
    + now apply chatgpt_score_at_most_4.
Qed.

(** X15.  [/router-test] tells what [/prompt] will do with the same prompt
    in the same state: [/prompt] routes the prompt, with the routing shown
    by [/router-test], exactly when [subscription_status] is true, and
    falls back otherwise; the agents it lists are the keys of
    [subscriptions]. *)
Theorem router_test_predicts_prompt w data pick now :
  exists shown out w',
    router_test w data = Ok (shown, w)
    /\ handle_prompt w data pick now = Ok (out, w')
    /\ available_agents shown = keys (subscriptions w)
    /\ classified_agent out = routing_agent (test_routing shown)
    /\ (subscription_status shown = true <->
        exists reply_, out = Routed (test_routing shown) reply_)
    /\ (subscription_status shown = false <-> w' = w /\
        exists error reply_,
          out = NotSubscribed error (routing_agent (test_routing shown))
                              reply_).
Proof.
  destruct (route_prompt_selects (prompt_of data))
    as (m & a & r & _ & _ & _ & _ & _ & _ & _ & _ & _ & Hroute).
  unfold router_test, handle_prompt. rewrite Hroute.
  cbn [bind routing_agent].
  destruct (get (subscriptions w) a false) eqn:Hsub; cbn [negb];
    eexists _, _, _; (split; [reflexivity|]); (split; [reflexivity|]);
    cbn [available_agents test_routing subscription_status classified_agent
         routing_agent];
    (split; [reflexivity|]); (split; [reflexivity|]).
  - split; split.
    + intros _. eexists. reflexivity.
    + reflexivity.
    + discriminate.
    + intros (_ & error & reply_ & [=]).
  - split; split.
    + discriminate.
    + intros (reply_ & [=]).
    + intros _. split; [reflexivity|]. eexists _, _. reflexivity.
    + reflexivity.
Qed.
